(** * Exponential backoff with full jitter (package [backoff])

    A shallow embedding of [backoff.go]: the [Backoff] counter, its
    defaulting step [setup], the constructors [New] and [NewWithoutJitter],
    the operations [Duration], [Reset] and [Tries], and the package's
    [init] function that seeds the shared random source.

    Go's [uint64] and [int64] ([time.Duration]) are integers of [Z] with the
    wrap-around of every operation written out.  The mutex of a [Backoff]
    guards a sequential critical section and carries no data; the embedding
    is the sequential behaviour of one call at a time. *)

From Stdlib Require Import ZArith Lia List Bool String.
From Stdlib.Strings Require Import Byte.
Import ListNotations.
Local Open Scope Z_scope.

(** ** Fixed-width integers of Go *)

Module Int.

Definition two63 : Z := 9223372036854775808.
Definition two64 : Z := 18446744073709551616.
Definition MaxInt64 : Z := 9223372036854775807.
Definition MinInt64 : Z := -9223372036854775808.
Definition MaxUint64 : Z := 18446744073709551615.

(** Conversion to [uint64]: the value modulo 2^64. *)
Definition uint64 (x : Z) : Z := x mod two64.

(** Conversion to [int64]: the value modulo 2^64, read in two's complement. *)
Definition int64 (x : Z) : Z := (x + two63) mod two64 - two63.

(** [x << s] on [uint64]; a shift count of 64 or more gives 0. *)
Definition shl (x s : Z) : Z :=
  if s <? 64 then uint64 (Z.shiftl x s) else 0.

(** [a * b] on [int64] ([time.Duration]). *)
Definition mul (a b : Z) : Z := int64 (a * b).

(** [x++] on [uint64]. *)
Definition incr (x : Z) : Z := uint64 (x + 1).

End Int.

(** ** package [time] *)

Definition Nanosecond : Z := 1.
Definition Second : Z := 1000000000 * Nanosecond.
Definition Minute : Z := 60 * Second.
Definition Hour : Z := 60 * Minute.

(** ** package [math/rand]

    The generator is outside the repository.  A generator is identified by
    the seed it was made from, and [Int63n] is modelled by its contract: it
    panics when its argument is not positive, and otherwise returns a value
    of the half-open interval from 0 to its argument.  The generator's
    choice is the argument [r]: the value it produced, reduced into the
    interval, so that every value of the interval is a possible result
    (lemma [Int63n_any]). *)

Definition Rand : Type := Z.

Inductive result : Type :=
| Returned (d : Z)
| Panicked (msg : string).

Definition Int63n (r : Z) (bound : Z) : result :=
  if bound <=? 0 then Panicked "invalid argument to Int63n"
  else Returned (r mod bound).

(** ** The package's variables and the [Backoff] struct *)

Record Globals : Type := mkGlobals {
  DefaultInterval : Z;
  DefaultMaxDuration : Z
}.

(** The values the package's variables are declared with. *)
Definition declared : Globals :=
  {| DefaultInterval := 5 * Minute; DefaultMaxDuration := 6 * Hour |}.

Record Backoff : Type := mkBackoff {
  maxDuration : Z;
  interval : Z;
  noJitter : bool;
  tries : Z;
  n : Z;
  rng : option Rand
}.

(** The zero value of the struct, [new(Backoff)]. *)
Definition zero_Backoff : Backoff :=
  {| maxDuration := 0; interval := 0; noJitter := false;
     tries := 0; n := 0; rng := None |}.

Definition set_interval (v : Z) (b : Backoff) : Backoff :=
  {| maxDuration := maxDuration b; interval := v; noJitter := noJitter b;
     tries := tries b; n := n b; rng := rng b |}.

Definition set_maxDuration (v : Z) (b : Backoff) : Backoff :=
  {| maxDuration := v; interval := interval b; noJitter := noJitter b;
     tries := tries b; n := n b; rng := rng b |}.

Definition set_noJitter (v : bool) (b : Backoff) : Backoff :=
  {| maxDuration := maxDuration b; interval := interval b; noJitter := v;
     tries := tries b; n := n b; rng := rng b |}.

Definition set_tries (v : Z) (b : Backoff) : Backoff :=
  {| maxDuration := maxDuration b; interval := interval b;
     noJitter := noJitter b; tries := v; n := n b; rng := rng b |}.

Definition set_n (v : Z) (b : Backoff) : Backoff :=
  {| maxDuration := maxDuration b; interval := interval b;
     noJitter := noJitter b; tries := tries b; n := v; rng := rng b |}.

(** ** [setup], [New], [NewWithoutJitter] *)

Definition setup (g : Globals) (b : Backoff) : Backoff :=
  let b := if interval b =? 0 then set_interval (DefaultInterval g) b else b in
  if maxDuration b =? 0 then set_maxDuration (DefaultMaxDuration g) b else b.

Definition New (g : Globals) (max itv : Z) : Backoff :=
  setup g {| maxDuration := max; interval := itv; noJitter := false;
             tries := 0; n := 0; rng := None |}.

Definition NewWithoutJitter (g : Globals) (max itv : Z) : Backoff :=
  set_noJitter true (New g max itv).

(** ** [Duration], [Reset], [Tries] *)

(** [pow := uint64(1 << b.n)] *)
Definition pow_of (b : Backoff) : Z := Int.shl 1 (n b).

(** [t = b.interval * time.Duration(pow)]: the duration before the clamp. *)
Definition raw_duration (b : Backoff) : Z :=
  Int.mul (interval b) (Int.int64 (pow_of b)).

(** The guard of [b.n++]: [pow < (pow<<1) && t < b.interval*time.Duration(pow<<1)]. *)
Definition may_grow (b : Backoff) : bool :=
  let pow := pow_of b in
  (pow <? Int.shl pow 1)
  && (raw_duration b <? Int.mul (interval b) (Int.int64 (Int.shl pow 1))).

(** [if t > b.maxDuration { t = b.maxDuration }] *)
Definition clamp (b : Backoff) (t : Z) : Z :=
  if t >? maxDuration b then maxDuration b else t.

(** One call of [Duration].  The counter is updated before the random draw,
    so the state is the same whether the draw returns or panics (the
    deferred unlock runs in both cases). *)
Definition Duration (g : Globals) (r : Z) (b : Backoff) : Backoff * result :=
  let b := setup g b in
  let b := set_tries (Int.incr (tries b)) b in
  let t := raw_duration b in
  let b' := if may_grow b then set_n (Int.incr (n b)) b else b in
  let t := clamp b' t in
  if noJitter b' then (b', Returned t) else (b', Int63n r t).

Definition Reset (b : Backoff) : Backoff :=
  set_n 0 (set_tries 0 b).

Definition Tries (b : Backoff) : Backoff * Z := (b, tries b).

(** ** Sequences of calls *)

Inductive op : Type :=
| OpDuration (r : Z)   (* a call of Duration; r is the generator's choice *)
| OpReset
| OpTries.

Inductive obs : Type :=
| ObsDuration (res : result)
| ObsReset
| ObsTries (v : Z).

Definition step (g : Globals) (o : op) (b : Backoff) : Backoff * obs :=
  match o with
  | OpDuration r => let (b', res) := Duration g r b in (b', ObsDuration res)
  | OpReset => (Reset b, ObsReset)
  | OpTries => let (b', v) := Tries b in (b', ObsTries v)
  end.

(** The state after a sequence of calls, and what the caller saw. *)
Fixpoint run (g : Globals) (b : Backoff) (ops : list op) : Backoff * list obs :=
  match ops with
  | [] => (b, [])
  | o :: ops' =>
      let (b1, x) := step g o b in
      let (b2, xs) := run g b1 ops' in
      (b2, x :: xs)
  end.

Definition state_after (g : Globals) (b : Backoff) (ops : list op) : Backoff :=
  fst (run g b ops).

Definition observed (g : Globals) (b : Backoff) (ops : list op) : list obs :=
  snd (run g b ops).

(** [k] calls of [Duration] in a row, with the generator's choices [rs]. *)
Definition Durations (g : Globals) (rs : list Z) (b : Backoff) : Backoff :=
  fold_left (fun b r => fst (Duration g r b)) rs b.

(** The argument of the random draw: the duration after the clamp, as one
    call of [Duration] computes it from the state it is entered with. *)
Definition clamped_duration (g : Globals) (b : Backoff) : Z :=
  let b := setup g b in
  clamp b (raw_duration b).

(** [k] calls of [Duration] in a row, all with the same choice [r]; the
    count is binary, so that long runs can be written down. *)
Definition Duration_times (g : Globals) (r : Z) (k : N) (b : Backoff) : Backoff :=
  N.iter k (fun b => fst (Duration g r b)) b.

(** The number of [Duration] calls made since the counter was constructed
    or last reset, after the calls [ops] that follow [c] earlier ones. *)
Definition calls_since_reset (c : Z) (ops : list op) : Z :=
  fold_left (fun c o => match o with
                        | OpDuration _ => c + 1
                        | OpReset => 0
                        | OpTries => c
                        end) ops c.

(** ** Reassigning the package's variables between calls *)

Inductive event : Type :=
| Call (o : op)
| SetDefaultInterval (d : Z)
| SetDefaultMaxDuration (d : Z).

Fixpoint play (g : Globals) (b : Backoff) (es : list event) : list obs :=
  match es with
  | [] => []
  | Call o :: es' => let (b', x) := step g o b in x :: play g b' es'
  | SetDefaultInterval d :: es' =>
      play {| DefaultInterval := d; DefaultMaxDuration := DefaultMaxDuration g |} b es'
  | SetDefaultMaxDuration d :: es' =>
      play {| DefaultInterval := DefaultInterval g; DefaultMaxDuration := d |} b es'
  end.

(** The calls of a sequence of events, the assignments left out. *)
Fixpoint calls_of (es : list event) : list op :=
  match es with
  | [] => []
  | Call o :: es' => o :: calls_of es'
  | _ :: es' => calls_of es'
  end.

(** ** [init]: seeding the shared generator

    [rand.Reader] is modelled by what it gives when read: the bytes it
    delivers, and the error it returns once they are used up. *)

Record Reader : Type := mkReader {
  delivered : list byte;
  failure : string
}.

(** [io.ReadFull(r, buf)]: the buffer after the read, and the error; the
    error is nil exactly when the whole buffer was filled, and an end of
    file after some bytes is reported as unexpected. *)
Definition ReadFull (rd : Reader) (len : nat) : list byte * option string :=
  let got := firstn len (delivered rd) in
  let buf := got ++ repeat x00 (len - List.length got) in
  if (len <=? List.length got)%nat then (buf, None)
  else if (0 <? List.length got)%nat && String.eqb (failure rd) "EOF"
       then (buf, Some "unexpected EOF"%string)
       else (buf, Some (failure rd)).

Definition byte_at (buf : list byte) (i : nat) : Z :=
  Z.of_N (Byte.to_N (nth i buf x00)).

(** [binary.LittleEndian.Uint64(buf)] *)
Definition LittleEndian_Uint64 (buf : list byte) : Z :=
  Z.lor (byte_at buf 0)
   (Z.lor (Z.shiftl (byte_at buf 1) 8)
    (Z.lor (Z.shiftl (byte_at buf 2) 16)
     (Z.lor (Z.shiftl (byte_at buf 3) 24)
      (Z.lor (Z.shiftl (byte_at buf 4) 32)
       (Z.lor (Z.shiftl (byte_at buf 5) 40)
        (Z.lor (Z.shiftl (byte_at buf 6) 48)
               (Z.shiftl (byte_at buf 7) 56))))))).

(** [mrand.New(mrand.NewSource(seed))] *)
Definition mrand_New (seed : Z) : Rand := seed.

Inductive init_result : Type :=
| InitPanicked (msg : string)
| InitDone (prng : Rand).

Definition init (rd : Reader) : init_result :=
  let (buf, err) := ReadFull rd 8 in
  match err with
  | Some e => InitPanicked e
  | None => InitDone (mrand_New (Int.int64 (LittleEndian_Uint64 buf)))
  end.

(** ** Predicates of the statements *)

(** The product [interval * 2^k] still fits a [time.Duration]: growth has
    not stalled before call [k]. *)
Definition fits (b : Backoff) (k : Z) : Prop :=
  interval b * 2 ^ k <= Int.MaxInt64.

(** The next doubling overflows: of [2^n] in [uint64], or of
    [interval * 2^(n+1)] in [time.Duration]. *)
Definition next_overflows (b : Backoff) : Prop :=
  Int.MaxUint64 < 2 ^ (n b + 1) \/ Int.MaxInt64 < interval b * 2 ^ (n b + 1).

(** What holds of every counter with a positive interval that is used from
    construction: the exponent is a number of doublings that did not
    overflow. *)
Definition exact (b : Backoff) : Prop :=
  0 < interval b /\ 0 <= n b /\ fits b (n b).

(** A counter as construction or [Reset] leaves it. *)
Definition fresh (b : Backoff) : Prop := tries b = 0 /\ n b = 0.

(** The invariant that counts: after [c] calls of [Duration] since
    construction or the last [Reset], the try counter is [c] modulo 2^64,
    and the exponent is at most [c] and at most 63. *)
Definition counted (c : Z) (b : Backoff) : Prop :=
  0 <= c /\ tries b = Int.uint64 c /\ 0 <= n b <= c /\ n b <= 63.

(** The exponent at which a positive interval stops doubling: the largest
    [s] for which [itv * 2^s] fits a [time.Duration]. *)
Definition stall_exponent (itv : Z) : Z := Z.log2 (Int.MaxInt64 / itv).

(** Two counters with the same settings: all fields but the two counters. *)
Definition same_settings (b1 b2 : Backoff) : Prop :=
  maxDuration b1 = maxDuration b2 /\ interval b1 = interval b2
  /\ noJitter b1 = noJitter b2 /\ rng b1 = rng b2.

(** ** The tests of [backoff_test.go]

    A test ends by passing, by a call of [t.Fatalf] (recorded with its
    format string) or by a panic of the code under test.  The generator's
    choices are given by [draws]: the value for the [i]-th call of
    [Duration] the test makes. *)

Inductive verdict : Type :=
| Pass
| Fatal (format : string)
| Panic (msg : string).

Definition TestDefaults (g : Globals) (draws : nat -> Z) : verdict :=
  let b := NewWithoutJitter g 0 0 in
  if negb (maxDuration b =? DefaultMaxDuration g) then
    Fatal "expected new backoff to use the default max duration (%s), but have %s"
  else if negb (interval b =? DefaultInterval g) then
    Fatal "exepcted new backoff to use the default interval (%s), but have %s"
  else if negb (Bool.eqb (noJitter b) true) then
    Fatal "backoff should have been initialised without jitter"
  else if match rng b with Some _ => true | None => false end then
    Fatal "RNG should not have been initialised yet"
  else
    match snd (Duration g (draws 0%nat) b) with
    | Panicked msg => Panic msg
    | Returned dur =>
        if negb (dur =? DefaultInterval g) then
          Fatal "expected first duration to be %s, have %s"
        else Pass
    end.

Definition TestSetup (g : Globals) (draws : nat -> Z) : verdict :=
  let b := zero_Backoff in
  match snd (Duration g (draws 0%nat) b) with
  | Panicked msg => Panic msg
  | Returned dur =>
      if (dur <? 0) || (dur >? 5 * Minute) then
        Fatal "want duration between 0 and 5 minutes, have %s"
      else Pass
  end.

(** The first loop of [TestTries], from [i] for [count] rounds. *)
Fixpoint TestTries_loop1 (g : Globals) (draws : nat -> Z) (i : nat) (count : nat)
    (b : Backoff) : Backoff + verdict :=
  match count with
  | O => inl b
  | S count' =>
      if negb (tries b =? Z.of_nat i) then inr (Fatal "want tries=%d, have tries=%d")
      else if negb (snd (Tries b) =? Z.of_nat i) then
        inr (Fatal "want tries=%d, have tries=%d")
      else
        let pow := Z.shiftl 1 (Z.of_nat i) in
        let expected := pow in
        let (b', res) := Duration g (draws i) b in
        match res with
        | Panicked msg => inr (Panic msg)
        | Returned dur =>
            if negb (dur =? expected) then
              inr (Fatal "want duration=%d, have duration=%d at i=%d")
            else TestTries_loop1 g draws (S i) count' b'
        end
  end.

(** The second loop of [TestTries]. *)
Fixpoint TestTries_loop2 (g : Globals) (draws : nat -> Z) (i : nat) (count : nat)
    (b : Backoff) : Backoff + verdict :=
  match count with
  | O => inl b
  | S count' =>
      let (b', res) := Duration g (draws i) b in
      match res with
      | Panicked msg => inr (Panic msg)
      | Returned dur =>
          if negb (dur =? 5) then inr (Fatal "want duration=5, have %d at i=%d")
          else TestTries_loop2 g draws (S i) count' b'
      end
  end.

Definition TestTries (g : Globals) (draws : nat -> Z) : verdict :=
  let b := NewWithoutJitter g 5 1 in
  match TestTries_loop1 g draws 0 3 b with
  | inr v => v
  | inl b =>
      match TestTries_loop2 g draws 3 2 b with
      | inr v => v
      | inl _ => Pass
      end
  end.

(** The loop of [TestReset]: the durations are dropped. *)
Fixpoint TestReset_loop (g : Globals) (draws : nat -> Z) (i : nat) (count : nat)
    (b : Backoff) : Backoff + verdict :=
  match count with
  | O => inl b
  | S count' =>
      let (b', res) := Duration g (draws i) b in
      match res with
      | Panicked msg => inr (Panic msg)
      | Returned _ => TestReset_loop g draws (S i) count' b'
      end
  end.

Definition TestReset (g : Globals) (draws : nat -> Z) : verdict :=
  let iter := 10%nat in
  let b := New g 10 1 in
  match TestReset_loop g draws 0 iter b with
  | inr v => v
  | inl b =>
      if negb (tries b =? Z.of_nat iter) then Fatal "expected tries=%d, have tries=%d"
      else
        let b := Reset b in
        if negb (tries b =? 0) then Fatal "expected tries=0 after reset, have tries=%d"
        else Pass
  end.

(** ** Tests of the package, replayed *)

Example TestTries_durations :
  observed declared (NewWithoutJitter declared 5 1)
    [OpTries; OpDuration 0; OpTries; OpDuration 0; OpTries; OpDuration 0;
     OpDuration 0; OpDuration 0]
  = [ObsTries 0; ObsDuration (Returned 1); ObsTries 1;
     ObsDuration (Returned 2); ObsTries 2; ObsDuration (Returned 4);
     ObsDuration (Returned 5); ObsDuration (Returned 5)].
Proof. vm_compute. reflexivity. Qed.

Example TestReset_tries :
  let b := state_after declared (New declared 10 1) (repeat (OpDuration 3) 10) in
  tries b = 10 /\ tries (Reset b) = 0 /\ n (Reset b) = 0.
Proof. vm_compute. repeat split; reflexivity. Qed.

Example TestDefaults_first :
  snd (Duration declared 0 (NewWithoutJitter declared 0 0)) = Returned (5 * Minute).
Proof. vm_compute. reflexivity. Qed.

(** ** Facts on the fixed-width integers *)

Module IntFacts.
Import Int.

Lemma two63_pow : two63 = 2 ^ 63.
Proof. reflexivity. Qed.

Lemma two64_pow : two64 = 2 ^ 64.
Proof. reflexivity. Qed.

Lemma uint64_range x : 0 <= uint64 x <= MaxUint64.
Proof.
  unfold uint64, MaxUint64, two64.
  pose proof (Z.mod_pos_bound x 18446744073709551616). lia.
Qed.

Lemma uint64_small x : 0 <= x <= MaxUint64 -> uint64 x = x.
Proof.
  unfold uint64, MaxUint64, two64. intros H.
  apply Z.mod_small. lia.
Qed.

Lemma int64_range x : MinInt64 <= int64 x <= MaxInt64.
Proof.
  unfold int64, MinInt64, MaxInt64, two63, two64.
  pose proof (Z.mod_pos_bound (x + 9223372036854775808) 18446744073709551616).
  lia.
Qed.

Lemma int64_small x : MinInt64 <= x <= MaxInt64 -> int64 x = x.
Proof.
  unfold int64, MinInt64, MaxInt64, two63, two64. intros H.
  rewrite Z.mod_small; lia.
Qed.

(** A value of the upper half of [uint64] is read as a negative number. *)
Lemma int64_high x : MaxInt64 < x <= MaxUint64 -> int64 x = x - two64.
Proof.
  unfold int64, MaxInt64, MaxUint64, two63, two64. intros H.
  replace (x + 9223372036854775808)
    with (x - 9223372036854775808 + 1 * 18446744073709551616) by lia.
  rewrite Z.mod_add by lia.
  rewrite Z.mod_small; lia.
Qed.

(** Multiplication wraps once: converting a factor first changes nothing. *)
Lemma mul_int64_r a x : mul a (int64 x) = mul a x.
Proof.
  unfold mul, int64, two63, two64.
  set (m := 18446744073709551616).
  set (h := 9223372036854775808).
  f_equal.
  rewrite (Z.mod_eq (x + h) m) by (unfold m; lia).
  replace (a * (x + h - m * ((x + h) / m) - h) + h)
    with (a * x + h + (- a * ((x + h) / m)) * m) by ring.
  apply Z.mod_add. unfold m; lia.
Qed.

Lemma shl_one s : 0 <= s < 64 -> shl 1 s = 2 ^ s.
Proof.
  intros H. unfold shl.
  destruct (Z.ltb_spec s 64); [|lia].
  rewrite Z.shiftl_1_l. apply uint64_small.
  assert (2 ^ s < 2 ^ 64) by (apply Z.pow_lt_mono_r; lia).
  assert (0 < 2 ^ s) by (apply Z.pow_pos_nonneg; lia).
  unfold MaxUint64. change (2 ^ 64) with 18446744073709551616 in *. lia.
Qed.

Lemma shl_one_big s : 64 <= s -> shl 1 s = 0.
Proof.
  intros H. unfold shl. destruct (Z.ltb_spec s 64); [lia|reflexivity].
Qed.

Lemma shl_one_neg s : s < 0 -> shl 1 s = 0.
Proof.
  intros H. unfold shl. destruct (Z.ltb_spec s 64); [|lia].
  rewrite Z.shiftl_1_l, Z.pow_neg_r by lia. reflexivity.
Qed.

(** [x << 1] is [2 * x] modulo 2^64. *)
Lemma shl_by_one x : shl x 1 = uint64 (2 * x).
Proof.
  unfold shl. change (1 <? 64) with true. cbv iota.
  rewrite Z.shiftl_mul_pow2 by lia. f_equal. change (2 ^ 1) with 2. ring.
Qed.

Lemma pow2_pos s : 0 <= s -> 0 < 2 ^ s.
Proof. intros. apply Z.pow_pos_nonneg; lia. Qed.

Lemma pow2_succ s : 0 <= s -> 2 ^ (s + 1) = 2 * 2 ^ s.
Proof. intros. rewrite Z.pow_add_r by lia. change (2 ^ 1) with 2. ring. Qed.

(** A power of two that fits [int64] has an exponent of at most 62. *)
Lemma pow2_fits s : 0 <= s -> 2 ^ s <= MaxInt64 -> s <= 62.
Proof.
  intros Hs H. destruct (Z.le_gt_cases s 62) as [|Hgt]; [assumption|].
  assert (2 ^ 63 <= 2 ^ s) by (apply Z.pow_le_mono_r; lia).
  unfold MaxInt64 in H. change (2 ^ 63) with 9223372036854775808 in *. lia.
Qed.

Lemma pow2_le_62 s : 0 <= s <= 62 -> 0 < 2 ^ s <= 4611686018427387904.
Proof.
  intros H. split; [apply pow2_pos; lia|].
  change 4611686018427387904 with (2 ^ 62).
  apply Z.pow_le_mono_r; lia.
Qed.

End IntFacts.

(** ** Field by field: what [setup] and [Duration] do *)

Ltac fields :=
  cbn [maxDuration interval noJitter tries n rng
       set_interval set_maxDuration set_noJitter set_tries set_n] in *.

Lemma interval_setup g b :
  interval (setup g b) = if interval b =? 0 then DefaultInterval g else interval b.
Proof.
  unfold setup.
  destruct (interval b =? 0) eqn:Hi; fields;
    destruct (maxDuration b =? 0); fields; try reflexivity.
Qed.

Lemma maxDuration_setup g b :
  maxDuration (setup g b)
  = if maxDuration b =? 0 then DefaultMaxDuration g else maxDuration b.
Proof.
  unfold setup.
  destruct (interval b =? 0); fields;
    destruct (maxDuration b =? 0) eqn:Hm; fields; reflexivity.
Qed.

Lemma setup_keeps g b :
  noJitter (setup g b) = noJitter b /\ tries (setup g b) = tries b
  /\ n (setup g b) = n b /\ rng (setup g b) = rng b.
Proof.
  unfold setup.
  destruct (interval b =? 0); fields;
    destruct (maxDuration b =? 0); fields; auto.
Qed.

Lemma Backoff_eq b1 b2 :
  maxDuration b1 = maxDuration b2 -> interval b1 = interval b2 ->
  noJitter b1 = noJitter b2 -> tries b1 = tries b2 -> n b1 = n b2 ->
  rng b1 = rng b2 -> b1 = b2.
Proof.
  destruct b1, b2; fields; intros; subst; reflexivity.
Qed.

Lemma setup_configured g b :
  interval b <> 0 -> maxDuration b <> 0 -> setup g b = b.
Proof.
  intros Hi Hm. unfold setup.
  destruct (Z.eqb_spec (interval b) 0); [contradiction|].
  destruct (Z.eqb_spec (maxDuration b) 0); [contradiction|].
  reflexivity.
Qed.

(** The state [Duration] leaves does not depend on the random draw, and is
    the state after [setup] with the two counters moved. *)
Lemma Duration_state g r b :
  fst (Duration g r b)
  = let b1 := set_tries (Int.incr (tries b)) (setup g b) in
    if may_grow (setup g b) then set_n (Int.incr (n b)) b1 else b1.
Proof.
  destruct (setup_keeps g b) as (_ & Ht & Hn & _).
  unfold Duration. cbv zeta.
  change (may_grow (set_tries (Int.incr (tries (setup g b))) (setup g b)))
    with (may_grow (setup g b)).
  rewrite Ht.
  destruct (may_grow (setup g b)); fields;
    [rewrite Hn|]; destruct (noJitter (setup g b)); reflexivity.
Qed.

Lemma Duration_result g r b :
  snd (Duration g r b)
  = if noJitter b then Returned (clamped_duration g b)
    else Int63n r (clamped_duration g b).
Proof.
  destruct (setup_keeps g b) as (Hj & _).
  unfold Duration, clamped_duration. cbv zeta.
  change (may_grow (set_tries (Int.incr (tries (setup g b))) (setup g b)))
    with (may_grow (setup g b)).
  destruct (may_grow (setup g b)); fields; rewrite Hj;
    destruct (noJitter b); reflexivity.
Qed.

Lemma Duration_fields g r b :
  let b' := fst (Duration g r b) in
  maxDuration b' = maxDuration (setup g b)
  /\ interval b' = interval (setup g b)
  /\ noJitter b' = noJitter b
  /\ tries b' = Int.incr (tries b)
  /\ n b' = (if may_grow (setup g b) then Int.incr (n b) else n b)
  /\ rng b' = rng b.
Proof.
  destruct (setup_keeps g b) as (Hj & Ht & Hn & Hr).
  cbv zeta. rewrite Duration_state. cbv zeta.
  destruct (may_grow (setup g b)); fields; auto 10.
Qed.

(** ** The guard of [b.n++] on a counter with a positive interval *)

Section Growth.
Import Int IntFacts.

Variable b : Backoff.
Hypothesis Hb : exact b.

Lemma exact_n_le_62 : 0 <= n b <= 62.
Proof.
  destruct Hb as (Hi & Hn & Hf). unfold fits in Hf. split; [assumption|].
  apply pow2_fits; [assumption|].
  pose proof (pow2_pos (n b) Hn). nia.
Qed.

Lemma exact_pow : pow_of b = 2 ^ n b.
Proof.
  pose proof exact_n_le_62. unfold pow_of. apply shl_one. lia.
Qed.

(** The raw duration is the product itself: nothing has wrapped. *)
Lemma exact_raw : raw_duration b = interval b * 2 ^ n b.
Proof.
  destruct Hb as (Hi & Hn & Hf). unfold fits in Hf.
  unfold raw_duration. rewrite mul_int64_r, exact_pow.
  unfold mul. apply int64_small.
  pose proof (pow2_pos (n b) Hn). unfold MinInt64. nia.
Qed.

Lemma exact_raw_positive : 0 < raw_duration b <= MaxInt64.
Proof.
  destruct Hb as (Hi & Hn & Hf). unfold fits in Hf.
  rewrite exact_raw. pose proof (pow2_pos (n b) Hn). nia.
Qed.

(** The guard holds exactly when the doubled duration still fits. *)
Lemma exact_may_grow :
  may_grow b = (interval b * 2 ^ (n b + 1) <=? MaxInt64).
Proof.
  pose proof exact_n_le_62 as Hn62.
  pose proof exact_raw_positive as Hraw.
  destruct Hb as (Hi & Hn & Hf). unfold fits in Hf.
  unfold may_grow. cbv zeta.
  rewrite mul_int64_r, exact_pow, shl_by_one.
  pose proof (pow2_le_62 (n b) Hn62) as Hp.
  rewrite uint64_small by (unfold MaxUint64; lia).
  replace (2 ^ n b <? 2 * 2 ^ n b) with true
    by (symmetry; apply Z.ltb_lt; lia).
  rewrite andb_true_l.
  rewrite exact_raw in *. rewrite pow2_succ by assumption.
  replace (interval b * (2 * 2 ^ n b)) with (2 * (interval b * 2 ^ n b)) by ring.
  set (t := interval b * 2 ^ n b) in *.
  unfold mul.
  destruct (Z.leb_spec (2 * t) MaxInt64) as [Hle|Hgt].
  - rewrite int64_small by (unfold MinInt64, MaxInt64 in *; lia).
    apply Z.ltb_lt. lia.
  - rewrite int64_high by (unfold MaxInt64, MaxUint64 in *; lia).
    apply Z.ltb_ge. unfold MaxInt64, two64 in *. lia.
Qed.

End Growth.

(** ** Runs of [Duration] on a counter with a positive interval *)

Lemma exact_setup g b : exact b -> exact (setup g b) /\ interval (setup g b) = interval b.
Proof.
  intros (Hi & Hn & Hf).
  destruct (setup_keeps g b) as (_ & _ & Hn' & _).
  assert (Hitv : interval (setup g b) = interval b).
  { rewrite interval_setup. destruct (Z.eqb_spec (interval b) 0); [lia|reflexivity]. }
  split; [|assumption].
  unfold exact, fits in *. rewrite Hitv, Hn'. auto.
Qed.

Lemma fits_le b j k : 0 < interval b -> 0 <= j <= k -> fits b k -> fits b j.
Proof.
  unfold fits. intros Hi Hjk Hk.
  assert (2 ^ j <= 2 ^ k) by (apply Z.pow_le_mono_r; lia).
  nia.
Qed.

Lemma Duration_exact g r b :
  exact b ->
  let b' := fst (Duration g r b) in
  exact b' /\ interval b' = interval b
  /\ n b' = (if interval b * 2 ^ (n b + 1) <=? Int.MaxInt64 then n b + 1 else n b).
Proof.
  intros Hb. cbv zeta.
  destruct (exact_setup g b Hb) as (Hs & Hitv).
  destruct (setup_keeps g b) as (_ & _ & Hn' & _).
  destruct (Duration_fields g r b) as (_ & Hi' & _ & _ & Hn & _).
  rewrite (exact_may_grow _ Hs), Hitv, Hn' in Hn.
  pose proof (exact_n_le_62 b Hb) as H62.
  rewrite Hi', Hitv.
  assert (Hincr : Int.incr (n b) = n b + 1).
  { apply IntFacts.uint64_small. unfold Int.MaxUint64. lia. }
  rewrite Hincr in Hn.
  split; [|split; [reflexivity|assumption]].
  destruct Hb as (Hpos & Hn0 & Hf).
  unfold exact, fits. rewrite Hi', Hitv, Hn.
  destruct (Z.leb_spec (interval b * 2 ^ (n b + 1)) Int.MaxInt64);
    repeat split; try assumption; lia.
Qed.

Lemma Durations_cons g r rs b :
  Durations g (r :: rs) b = Durations g rs (fst (Duration g r b)).
Proof. reflexivity. Qed.

(** After [k] calls the exponent is at most [k] more, and exactly [k] more
    while the product fits. *)
Lemma Durations_exact g rs b :
  exact b ->
  let b' := Durations g rs b in
  let k := Z.of_nat (List.length rs) in
  exact b' /\ interval b' = interval b
  /\ n b <= n b' <= n b + k
  /\ (fits b (n b + k) -> n b' = n b + k).
Proof.
  revert b. induction rs as [|r rs IH]; intros b Hb; cbv zeta.
  - cbn [List.length Z.of_nat Durations fold_left].
    split; [assumption|]. split; [reflexivity|]. split; [lia|]. intros _; lia.
  - rewrite Durations_cons.
    destruct (Duration_exact g r b Hb) as (Hb1 & Hi1 & Hn1).
    destruct (IH _ Hb1) as (He & Hi & Hn & Hfit).
    cbv zeta in *.
    change (List.length (r :: rs)) with (S (List.length rs)).
    rewrite Nat2Z.inj_succ.
    set (k := Z.of_nat (List.length rs)) in *.
    set (b1 := fst (Duration g r b)) in *.
    assert (Hk : 0 <= k) by (unfold k; lia).
    split; [assumption|]. split; [congruence|].
    destruct Hb as (Hpos & Hn0 & Hf0).
    destruct (Z.leb_spec (interval b * 2 ^ (n b + 1)) Int.MaxInt64) as [Hle|Hgt].
    + split; [lia|]. intros Hf. rewrite Hfit; [lia|].
      unfold fits in *. rewrite Hi1, Hn1.
      replace (n b + 1 + k) with (n b + Z.succ k) by lia. assumption.
    + split; [lia|]. intros Hf. exfalso.
      assert (fits b (n b + 1)) by (apply (fits_le b _ (n b + Z.succ k)); auto; lia).
      unfold fits in *. lia.
Qed.

Lemma Duration_keeps_config g r b :
  interval b <> 0 -> maxDuration b <> 0 ->
  let b' := fst (Duration g r b) in
  interval b' = interval b /\ maxDuration b' = maxDuration b
  /\ noJitter b' = noJitter b /\ rng b' = rng b.
Proof.
  intros Hi Hm. cbv zeta.
  destruct (Duration_fields g r b) as (Hm' & Hi' & Hj & _ & _ & Hr).
  rewrite setup_configured in Hm', Hi' by assumption. auto.
Qed.

Lemma Durations_keep_config g rs b :
  interval b <> 0 -> maxDuration b <> 0 ->
  let b' := Durations g rs b in
  interval b' = interval b /\ maxDuration b' = maxDuration b
  /\ noJitter b' = noJitter b /\ rng b' = rng b.
Proof.
  revert b. induction rs as [|r rs IH]; intros b Hi Hm; cbv zeta.
  - cbn. auto.
  - rewrite Durations_cons.
    destruct (Duration_keeps_config g r b Hi Hm) as (Hi1 & Hm1 & Hj1 & Hr1).
    cbv zeta in *.
    destruct (IH (fst (Duration g r b))) as (Hi2 & Hm2 & Hj2 & Hr2);
      [congruence|congruence|].
    cbv zeta in *. repeat split; congruence.
Qed.

(** The clamped duration of a configured counter with a positive interval. *)
Lemma clamped_exact g b :
  exact b -> maxDuration b <> 0 ->
  clamped_duration g b = Z.min (interval b * 2 ^ n b) (maxDuration b).
Proof.
  intros Hb Hm.
  assert (Hi : interval b <> 0) by (destruct Hb; lia).
  unfold clamped_duration. cbv zeta.
  rewrite setup_configured by assumption.
  rewrite (exact_raw b Hb). unfold clamp.
  destruct (Z.gtb_spec (interval b * 2 ^ n b) (maxDuration b)); lia.
Qed.

(** ** The random draw *)

(** Every value of the interval is a possible result of the draw. *)
Lemma Int63n_any v bound : 0 <= v < bound -> Int63n v bound = Returned v.
Proof.
  intros H. unfold Int63n.
  destruct (Z.leb_spec bound 0); [lia|].
  rewrite Z.mod_small by assumption. reflexivity.
Qed.

Lemma Int63n_positive r bound :
  0 < bound -> exists d, Int63n r bound = Returned d /\ 0 <= d < bound.
Proof.
  intros H. unfold Int63n.
  destruct (Z.leb_spec bound 0); [lia|].
  exists (r mod bound). split; [reflexivity|].
  apply Z.mod_pos_bound. assumption.
Qed.

Lemma Int63n_not_positive r bound :
  bound <= 0 -> Int63n r bound = Panicked "invalid argument to Int63n".
Proof.
  intros H. unfold Int63n.
  destruct (Z.leb_spec bound 0); [reflexivity|lia].
Qed.

(** ** Durations returned by a counter used from construction or [Reset] *)

Lemma exact_of_start b :
  0 < interval b <= Int.MaxInt64 -> n b = 0 -> exact b.
Proof.
  intros Hi Hn. unfold exact, fits. rewrite Hn.
  change (2 ^ 0) with 1. lia.
Qed.

(** C1. Without jitter, with a positive interval and a positive maximum,
    the call of [Duration] that follows [k] earlier calls on a counter
    fresh from construction or [Reset] returns the smaller of
    [interval * 2^k] and [maxDuration], for every [k] at which the product
    still fits a [time.Duration] (growth has not stalled). *)
Theorem Duration_without_jitter g rs r b :
  noJitter b = true -> 0 < interval b -> 0 < maxDuration b -> n b = 0 ->
  fits b (Z.of_nat (List.length rs)) ->
  snd (Duration g r (Durations g rs b))
  = Returned (Z.min (interval b * 2 ^ Z.of_nat (List.length rs)) (maxDuration b)).
Proof.
  intros Hj Hi Hm Hn Hfit.
  assert (Hb : exact b).
  { apply exact_of_start; [|assumption]. split; [assumption|].
    apply (fits_le b 0) in Hfit; [|assumption|lia].
    unfold fits in Hfit. change (2 ^ 0) with 1 in Hfit. lia. }
  destruct (Durations_exact g rs b Hb) as (He & Hi' & _ & Hgrow).
  destruct (Durations_keep_config g rs b) as (_ & Hm' & Hj' & _); [lia|lia|].
  cbv zeta in *. rewrite Hn in Hgrow. cbn [Z.add] in Hgrow.
  rewrite Duration_result, Hj', Hj.
  rewrite clamped_exact by (try assumption; lia).
  rewrite Hi', Hm', (Hgrow Hfit). reflexivity.
Qed.

Lemma Duration_without_jitter_witness :
  snd (Duration declared 7 (Durations declared [7; 7] (NewWithoutJitter declared 5 1)))
  = Returned 4.
Proof.
  apply (Duration_without_jitter declared [7; 7] 7 (NewWithoutJitter declared 5 1)).
  - reflexivity.
  - reflexivity.
  - reflexivity.
  - reflexivity.
  - unfold fits, Int.MaxInt64. simpl. lia.
Defined.

(** C3. With jitter, a positive interval and a positive maximum, the call
    of [Duration] that follows [k] earlier calls returns a duration [d]
    with [0 <= d < min (interval * 2^k) maxDuration], whatever the
    generator chose in this call and in the earlier ones. *)
Theorem Duration_with_jitter g rs r b :
  noJitter b = false -> 0 < interval b <= Int.MaxInt64 -> 0 < maxDuration b ->
  n b = 0 ->
  exists d,
    snd (Duration g r (Durations g rs b)) = Returned d
    /\ 0 <= d < Z.min (interval b * 2 ^ Z.of_nat (List.length rs)) (maxDuration b).
Proof.
  intros Hj Hi Hm Hn.
  assert (Hb : exact b) by (apply exact_of_start; assumption).
  destruct (Durations_exact g rs b Hb) as (He & Hi' & Hle & _).
  destruct (Durations_keep_config g rs b) as (_ & Hm' & Hj' & _); [lia|lia|].
  cbv zeta in *. rewrite Hn in Hle. cbn [Z.add] in Hle.
  set (b' := Durations g rs b) in *.
  set (k := Z.of_nat (List.length rs)) in *.
  rewrite Duration_result, Hj', Hj.
  rewrite clamped_exact by (try assumption; lia).
  rewrite Hi', Hm'.
  assert (Hpow : 0 < 2 ^ n b' <= 2 ^ k).
  { split; [apply IntFacts.pow2_pos; lia|apply Z.pow_le_mono_r; lia]. }
  destruct (Int63n_positive r (Z.min (interval b * 2 ^ n b') (maxDuration b)))
    as (d & Hd & Hrange); [nia|].
  exists d. split; [assumption|]. nia.
Qed.

Lemma Duration_with_jitter_witness :
  exists d,
    snd (Duration declared 12 (Durations declared [3; 9] (New declared 10 1)))
    = Returned d
    /\ 0 <= d < Z.min (1 * 2 ^ 2) 10.
Proof.
  apply (Duration_with_jitter declared [3; 9] 12 (New declared 10 1)).
  - reflexivity.
  - unfold Int.MaxInt64. simpl. lia.
  - reflexivity.
  - reflexivity.
Defined.

(** ** The defaulting step *)

Lemma setup_idempotent g b : setup g (setup g b) = setup g b.
Proof.
  destruct (setup_keeps g (setup g b)) as (Hj & Ht & Hn & Hr).
  apply Backoff_eq; try assumption.
  - rewrite maxDuration_setup at 1. rewrite maxDuration_setup.
    destruct (Z.eqb_spec (maxDuration b) 0) as [Hz|Hnz].
    + destruct (DefaultMaxDuration g =? 0); reflexivity.
    + destruct (Z.eqb_spec (maxDuration b) 0); [contradiction|reflexivity].
  - rewrite interval_setup at 1. rewrite interval_setup.
    destruct (Z.eqb_spec (interval b) 0) as [Hz|Hnz].
    + destruct (DefaultInterval g =? 0); reflexivity.
    + destruct (Z.eqb_spec (interval b) 0); [contradiction|reflexivity].
Qed.

(** C6. [setup] is idempotent and only fills fields that are zero: a zero
    interval becomes [DefaultInterval], a zero maximum becomes
    [DefaultMaxDuration], and a field that is not zero, like every other
    field, is left as it is. *)
Theorem setup_idempotent_fills_zero g b :
  setup g (setup g b) = setup g b
  /\ interval (setup g b)
     = (if interval b =? 0 then DefaultInterval g else interval b)
  /\ maxDuration (setup g b)
     = (if maxDuration b =? 0 then DefaultMaxDuration g else maxDuration b)
  /\ noJitter (setup g b) = noJitter b /\ tries (setup g b) = tries b
  /\ n (setup g b) = n b /\ rng (setup g b) = rng b.
Proof.
  split; [apply setup_idempotent|].
  split; [apply interval_setup|].
  split; [apply maxDuration_setup|apply setup_keeps].
Qed.

(** ** A zero-value counter and a constructed one *)

Lemma Duration_after_setup g r b : Duration g r (setup g b) = Duration g r b.
Proof. unfold Duration. rewrite setup_idempotent. reflexivity. Qed.

Lemma setup_Reset g b : setup g (Reset b) = Reset (setup g b).
Proof.
  destruct (setup_keeps g b) as (Hj & Ht & Hn & Hr).
  destruct (setup_keeps g (Reset b)) as (Hj' & Ht' & Hn' & Hr').
  unfold Reset in *. fields.
  apply Backoff_eq; fields; try assumption; try congruence.
  - rewrite !maxDuration_setup. reflexivity.
  - rewrite !interval_setup. reflexivity.
Qed.

Lemma observed_cons g b o ops :
  observed g b (o :: ops)
  = snd (step g o b) :: observed g (fst (step g o b)) ops.
Proof.
  unfold observed. cbn [run].
  destruct (step g o b) as [b1 x]. cbn [fst snd].
  destruct (run g b1 ops). reflexivity.
Qed.

Lemma state_after_cons g b o ops :
  state_after g b (o :: ops) = state_after g (fst (step g o b)) ops.
Proof.
  unfold state_after. cbn [run].
  destruct (step g o b) as [b1 x]. cbn [fst snd].
  destruct (run g b1 ops). reflexivity.
Qed.

Lemma step_Duration g r b :
  step g (OpDuration r) b = (fst (Duration g r b), ObsDuration (snd (Duration g r b))).
Proof. cbn [step]. destruct (Duration g r b). reflexivity. Qed.

(** Two counters that [setup] makes equal cannot be told apart. *)
Lemma observed_up_to_setup g ops :
  forall b1 b2, setup g b1 = setup g b2 -> observed g b1 ops = observed g b2 ops.
Proof.
  induction ops as [|o ops IH]; intros b1 b2 Heq; [reflexivity|].
  rewrite !observed_cons.
  destruct o as [r| |].
  - rewrite !step_Duration. cbn [fst snd].
    rewrite <- (Duration_after_setup g r b1), <- (Duration_after_setup g r b2), Heq.
    reflexivity.
  - cbn [step fst snd]. f_equal. apply IH.
    rewrite !setup_Reset, Heq. reflexivity.
  - cbn [step Tries fst snd].
    destruct (setup_keeps g b1) as (_ & Ht1 & _).
    destruct (setup_keeps g b2) as (_ & Ht2 & _).
    f_equal; [|apply IH; assumption].
    f_equal. rewrite <- Ht1, <- Ht2, Heq. reflexivity.
Qed.

(** C7. With the package's variables as declared (5 minutes, 6 hours), a
    zero-value counter and a counter made by [New] with these values (or by
    [New(0, 0)]) give the same results whatever calls of [Duration],
    [Reset] and [Tries] are made and whatever the generator chooses. *)
Theorem zero_value_behaves_as_New ops :
  observed declared zero_Backoff ops
  = observed declared (New declared (6 * Hour) (5 * Minute)) ops
  /\ observed declared zero_Backoff ops
     = observed declared (New declared 0 0) ops.
Proof.
  split; apply observed_up_to_setup; reflexivity.
Qed.

(** ** Reassigning the defaults after construction *)

Lemma Duration_configured g g' r b :
  interval b <> 0 -> maxDuration b <> 0 -> Duration g r b = Duration g' r b.
Proof.
  intros Hi Hm. unfold Duration.
  rewrite (setup_configured g), (setup_configured g') by assumption.
  reflexivity.
Qed.

Lemma step_configured g g' o b :
  interval b <> 0 -> maxDuration b <> 0 ->
  step g o b = step g' o b
  /\ interval (fst (step g o b)) <> 0 /\ maxDuration (fst (step g o b)) <> 0.
Proof.
  intros Hi Hm. destruct o as [r| |].
  - rewrite !step_Duration, (Duration_configured g g' r b) by assumption.
    split; [reflexivity|]. cbn [fst].
    destruct (Duration_keeps_config g' r b Hi Hm) as (Hi' & Hm' & _).
    cbv zeta in *. rewrite Hi', Hm'. auto.
  - cbn [step fst Reset]. fields. auto.
  - cbn [step fst Tries]. auto.
Qed.

(** A counter whose two settings are not zero never reads the defaults. *)
Lemma play_configured es :
  forall g g' b, interval b <> 0 -> maxDuration b <> 0 ->
  play g b es = observed g' b (calls_of es).
Proof.
  induction es as [|e es IH]; intros g g' b Hi Hm; [reflexivity|].
  destruct e as [o|d|d]; cbn [play calls_of].
  - rewrite observed_cons.
    destruct (step_configured g g' o b Hi Hm) as (Heq & Hi' & Hm').
    rewrite <- Heq.
    destruct (step g o b) as [b1 x] eqn:Hs. cbn [fst snd] in *.
    f_equal. apply IH; assumption.
  - apply IH; assumption.
  - apply IH; assumption.
Qed.

(** C10, as the code has it. [New(0, 0)] copies the defaults into the
    counter when it is made.  When both defaults are not zero at that
    moment, no later assignment to [DefaultInterval] or
    [DefaultMaxDuration] changes what the counter does; a zero-value
    counter takes the defaults in force at its first call of [Duration]. *)
Theorem New_copies_defaults g es :
  DefaultInterval g <> 0 -> DefaultMaxDuration g <> 0 ->
  interval (New g 0 0) = DefaultInterval g
  /\ maxDuration (New g 0 0) = DefaultMaxDuration g
  /\ play g (New g 0 0) es = observed g (New g 0 0) (calls_of es)
  /\ (forall g' r,
        interval (fst (Duration g' r zero_Backoff)) = DefaultInterval g'
        /\ maxDuration (fst (Duration g' r zero_Backoff)) = DefaultMaxDuration g').
Proof.
  intros Hi Hm.
  assert (Hi' : interval (New g 0 0) = DefaultInterval g) by reflexivity.
  assert (Hm' : maxDuration (New g 0 0) = DefaultMaxDuration g) by reflexivity.
  split; [assumption|]. split; [assumption|]. split.
  - apply play_configured; congruence.
  - intros g' r.
    destruct (Duration_fields g' r zero_Backoff) as (Hm2 & Hi2 & _).
    cbv zeta in *. rewrite Hm2, Hi2. split; reflexivity.
Qed.

Lemma New_copies_defaults_witness :
  play declared (New declared 0 0)
    [Call (OpDuration 1); SetDefaultInterval 1; SetDefaultMaxDuration 2;
     Call (OpDuration 2); Call OpTries]
  = observed declared (New declared 0 0) [OpDuration 1; OpDuration 2; OpTries].
Proof.
  apply (New_copies_defaults declared
           [Call (OpDuration 1); SetDefaultInterval 1; SetDefaultMaxDuration 2;
            Call (OpDuration 2); Call OpTries]).
  - vm_compute. discriminate.
  - vm_compute. discriminate.
Defined.

(** C10 as stated fails when a default is zero at the time of [New]: the
    field is then still zero, and an assignment made after [New] returned
    decides the next call of [Duration]. *)
Lemma New_zero_default_reads_later_default :
  let g := {| DefaultInterval := 0; DefaultMaxDuration := 6 * Hour |} in
  let b := New g 0 0 in
  interval b = DefaultInterval g
  /\ maxDuration b = DefaultMaxDuration g
  /\ play g b [Call (OpDuration 7)]
     = [ObsDuration (Panicked "invalid argument to Int63n")]
  /\ play g b [SetDefaultInterval (5 * Minute); Call (OpDuration 7)]
     = [ObsDuration (Returned 7)]
  /\ play g b [SetDefaultInterval (5 * Minute); Call (OpDuration 7)]
     <> observed g b (calls_of [SetDefaultInterval (5 * Minute); Call (OpDuration 7)]).
Proof.
  vm_compute. repeat split; try reflexivity. discriminate.
Qed.

(** ** Seeding the shared generator *)

Lemma ReadFull_error rd :
  snd (ReadFull rd 8) = None <-> (8 <= List.length (delivered rd))%nat.
Proof.
  unfold ReadFull. cbv zeta.
  pose proof (length_firstn 8 (delivered rd)) as Hlen.
  destruct (Nat.leb_spec 8 (List.length (firstn 8 (delivered rd)))) as [Hle|Hlt].
  - cbn [snd]. split; [intros _; lia|reflexivity].
  - destruct ((0 <? List.length (firstn 8 (delivered rd)))%nat
              && String.eqb (failure rd) "EOF"); cbn [snd];
      (split; [discriminate|intros; lia]).
Qed.

Lemma ReadFull_buffer rd :
  (8 <= List.length (delivered rd))%nat ->
  fst (ReadFull rd 8) = firstn 8 (delivered rd).
Proof.
  intros H. unfold ReadFull. cbv zeta.
  pose proof (length_firstn 8 (delivered rd)) as Hlen.
  replace (8 - List.length (firstn 8 (delivered rd)))%nat with 0%nat by lia.
  cbn [repeat]. rewrite app_nil_r.
  destruct (8 <=? List.length (firstn 8 (delivered rd)))%nat; [reflexivity|].
  destruct ((0 <? List.length (firstn 8 (delivered rd)))%nat
            && String.eqb (failure rd) "EOF"); reflexivity.
Qed.

(** C8. [init] panics exactly when reading the eight bytes from the
    entropy source fails; when it does not panic, the generator is seeded
    with the eight bytes read, taken as a little-endian [int64], and with
    nothing else. *)
Theorem init_panics_iff_read_fails rd :
  ((exists msg, init rd = InitPanicked msg) <-> snd (ReadFull rd 8) <> None)
  /\ ((exists msg, init rd = InitPanicked msg)
      <-> (List.length (delivered rd) < 8)%nat)
  /\ (forall prng, init rd = InitDone prng ->
        (8 <= List.length (delivered rd))%nat
        /\ prng = mrand_New (Int.int64 (LittleEndian_Uint64 (firstn 8 (delivered rd))))).
Proof.
  pose proof (ReadFull_error rd) as Herr.
  pose proof (ReadFull_buffer rd) as Hbuf.
  unfold init.
  destruct (ReadFull rd 8) as [buf err]. cbn [fst snd] in *.
  destruct err as [e|].
  - assert (Hshort : (List.length (delivered rd) < 8)%nat).
    { destruct (Nat.lt_ge_cases (List.length (delivered rd)) 8) as [|Hge]; [assumption|].
      apply Herr in Hge. discriminate. }
    split; [|split].
    + split; [intros _; discriminate|intros _; exists e; reflexivity].
    + split; [intros _; assumption|intros _; exists e; reflexivity].
    + intros prng Hdone. discriminate.
  - assert (Hfull : (8 <= List.length (delivered rd))%nat) by (apply Herr; reflexivity).
    split; [|split].
    + split; [intros (msg & Hmsg); discriminate|intros Hne; contradiction].
    + split; [intros (msg & Hmsg); discriminate|intros; lia].
    + intros prng Hdone. injection Hdone as <-.
      split; [assumption|]. rewrite (Hbuf Hfull). reflexivity.
Qed.

Example init_seed :
  init {| delivered := [x01; x02; x00; x00; x00; x00; x00; x80; xff];
          failure := "EOF" |}
  = InitDone (Int.MinInt64 + 513).
Proof. vm_compute. reflexivity. Qed.

Example init_short_read :
  init {| delivered := [x01; x02; x03]; failure := "EOF" |}
  = InitPanicked "unexpected EOF".
Proof. vm_compute. reflexivity. Qed.

(** ** The growth stall *)

Lemma step_exact g o b :
  exact b ->
  exact (fst (step g o b)) /\ interval (fst (step g o b)) = interval b.
Proof.
  intros Hb. destruct o as [r| |].
  - rewrite step_Duration. cbn [fst].
    destruct (Duration_exact g r b Hb) as (He & Hi & _). auto.
  - cbn [step fst]. unfold Reset. fields. split; [|reflexivity].
    destruct Hb as (Hi & Hn & Hf).
    unfold exact. fields. split; [assumption|]. split; [lia|].
    pose proof (fits_le b 0 (n b) Hi (conj (Z.le_refl 0) Hn) Hf) as Hf0.
    exact Hf0.
  - cbn [step fst Tries]. auto.
Qed.

Lemma state_after_exact g ops :
  forall b, exact b ->
  exact (state_after g b ops) /\ interval (state_after g b ops) = interval b.
Proof.
  induction ops as [|o ops IH]; intros b Hb; [split; [assumption|reflexivity]|].
  rewrite state_after_cons.
  destruct (step_exact g o b Hb) as (He & Hi).
  destruct (IH _ He) as (He' & Hi'). split; [assumption|congruence].
Qed.

Lemma Duration_stalled g r b :
  exact b -> next_overflows b ->
  n (fst (Duration g r b)) = n b.
Proof.
  intros Hb Hov.
  destruct (Duration_exact g r b Hb) as (_ & _ & Hn). cbv zeta in Hn.
  pose proof (exact_n_le_62 b Hb) as H62.
  destruct (Z.leb_spec (interval b * 2 ^ (n b + 1)) Int.MaxInt64) as [Hle|Hgt];
    [|assumption].
  exfalso. destruct Hov as [Hov|Hov]; [|lia].
  assert (2 ^ (n b + 1) <= 2 ^ 63) by (apply Z.pow_le_mono_r; lia).
  unfold Int.MaxUint64 in Hov. change (2 ^ 63) with 9223372036854775808 in *. lia.
Qed.

Lemma Durations_stalled g rs :
  forall b, exact b -> next_overflows b ->
  let b' := Durations g rs b in
  exact b' /\ n b' = n b /\ interval b' = interval b.
Proof.
  induction rs as [|r rs IH]; intros b Hb Hov; cbv zeta.
  - cbn. auto.
  - rewrite Durations_cons.
    destruct (Duration_exact g r b Hb) as (He & Hi & _).
    pose proof (Duration_stalled g r b Hb Hov) as Hn.
    cbv zeta in *.
    destruct (IH (fst (Duration g r b)) He) as (He' & Hn' & Hi').
    { unfold next_overflows in *. rewrite Hn, Hi. assumption. }
    cbv zeta in *. split; [assumption|]. split; congruence.
Qed.

(** C5. On a counter with a positive interval, used from construction or
    [Reset] through any calls: the raw duration of the next call is the
    product [interval * 2^n] itself, at least the interval and within
    [time.Duration] (it has not wrapped); and once the next doubling
    would overflow, the exponent [n] stays where it is through every
    further call of [Duration], each of which computes the same raw
    duration [interval * 2^n]. *)
Theorem growth_stalls g b0 ops :
  0 < interval b0 <= Int.MaxInt64 -> n b0 = 0 ->
  let b := state_after g b0 ops in
  (raw_duration (setup g b) = interval b0 * 2 ^ n b
   /\ interval b0 <= raw_duration (setup g b) <= Int.MaxInt64)
  /\ (next_overflows b ->
      forall rs,
        n (Durations g rs b) = n b
        /\ raw_duration (setup g (Durations g rs b)) = interval b0 * 2 ^ n b).
Proof.
  intros Hi Hn. cbv zeta.
  pose proof (exact_of_start b0 Hi Hn) as Hb0.
  destruct (state_after_exact g ops b0 Hb0) as (Hb & Hitv).
  set (b := state_after g b0 ops) in *.
  assert (Hraw : forall c, exact c -> interval c = interval b0 ->
                 raw_duration (setup g c) = interval b0 * 2 ^ n c).
  { intros c Hc Hic.
    destruct (exact_setup g c Hc) as (Hs & His).
    destruct (setup_keeps g c) as (_ & _ & Hns & _).
    rewrite (exact_raw _ Hs), His, Hns, Hic. reflexivity. }
  split.
  - rewrite (Hraw b Hb Hitv). split; [reflexivity|].
    destruct Hb as (Hpos & Hn0 & Hf). unfold fits in Hf. rewrite Hitv in Hf.
    pose proof (IntFacts.pow2_pos (n b) Hn0). split; [nia|assumption].
  - intros Hov rs.
    destruct (Durations_stalled g rs b Hb Hov) as (He & Hn' & Hi').
    cbv zeta in *. split; [assumption|].
    rewrite (Hraw _ He) by congruence. rewrite Hn'. reflexivity.
Qed.

Lemma growth_stalls_witness :
  let b0 := New declared 0 (5 * Minute) in
  let b := state_after declared b0 (repeat (OpDuration 0) 30) in
  (raw_duration (setup declared b) = interval b0 * 2 ^ n b
   /\ interval b0 <= raw_duration (setup declared b) <= Int.MaxInt64)
  /\ (next_overflows b ->
      forall rs,
        n (Durations declared rs b) = n b
        /\ raw_duration (setup declared (Durations declared rs b))
           = interval b0 * 2 ^ n b).
Proof.
  apply (growth_stalls declared (New declared 0 (5 * Minute))
           (repeat (OpDuration 0) 30)).
  - unfold Int.MaxInt64. simpl. lia.
  - reflexivity.
Defined.

(** The counter of the witness has stalled: after 30 calls the exponent of
    a five-minute interval is 24, and the next doubling overflows. *)
Example five_minutes_stall_at_24 :
  let b := state_after declared (New declared 0 (5 * Minute)) (repeat (OpDuration 0) 30) in
  n b = 24 /\ tries b = 30
  /\ (Int.MaxInt64 <? interval b * 2 ^ (n b + 1)) = true.
Proof. vm_compute. repeat split; reflexivity. Qed.

(** ** The try counter and the exponent *)

(** The guard of [b.n++] can only hold while the exponent is at most 62. *)
Lemma may_grow_bound b : may_grow b = true -> 0 <= n b <= 62.
Proof.
  unfold may_grow. cbv zeta. intros H.
  apply andb_true_iff in H. destruct H as (H & _).
  apply Z.ltb_lt in H. unfold pow_of in H.
  destruct (Z.lt_ge_cases (n b) 0) as [Hneg|Hnn].
  { rewrite IntFacts.shl_one_neg in H by assumption. vm_compute in H. discriminate. }
  destruct (Z.lt_ge_cases (n b) 64) as [Hlt|Hbig].
  2:{ rewrite IntFacts.shl_one_big in H by assumption. vm_compute in H. discriminate. }
  destruct (Z.eq_dec (n b) 63) as [H63|Hne]; [|lia].
  rewrite H63 in H. vm_compute in H. discriminate.
Qed.

Lemma Duration_n g r b :
  n b <= n (fst (Duration g r b)) <= n b + 1
  /\ (n (fst (Duration g r b)) = n b + 1 -> 0 <= n b <= 62).
Proof.
  destruct (Duration_fields g r b) as (_ & _ & _ & _ & Hn & _).
  destruct (setup_keeps g b) as (_ & _ & Hns & _).
  cbv zeta in Hn. rewrite Hn.
  destruct (may_grow (setup g b)) eqn:Hg.
  - apply may_grow_bound in Hg. rewrite Hns in Hg.
    assert (Hincr : Int.incr (n b) = n b + 1).
    { apply IntFacts.uint64_small. unfold Int.MaxUint64. lia. }
    rewrite Hincr. split; [lia|intros _; assumption].
  - split; [lia|intros; lia].
Qed.

(** The exponent never decreases, except by [Reset]. *)
Lemma step_n_monotone g o b : o <> OpReset -> n b <= n (fst (step g o b)).
Proof.
  intros Ho. destruct o as [r| |]; [|contradiction|cbn; lia].
  rewrite step_Duration. cbn [fst]. apply Duration_n.
Qed.

Lemma uint64_succ c : Int.incr (Int.uint64 c) = Int.uint64 (c + 1).
Proof.
  unfold Int.incr, Int.uint64.
  rewrite Zplus_mod_idemp_l. reflexivity.
Qed.

Lemma step_counted g o b c :
  counted c b -> counted (calls_since_reset c [o]) (fst (step g o b)).
Proof.
  intros (Hc & Ht & Hn & H63). destruct o as [r| |]; cbn [calls_since_reset fold_left].
  - rewrite step_Duration. cbn [fst].
    destruct (Duration_fields g r b) as (_ & _ & _ & Ht' & _).
    destruct (Duration_n g r b) as (Hn' & Hgrow).
    cbv zeta in *. unfold counted.
    rewrite Ht', Ht, uint64_succ.
    split; [lia|]. split; [reflexivity|]. split; [lia|].
    destruct (Z.eq_dec (n (fst (Duration g r b))) (n b + 1)) as [He|Hne].
    + apply Hgrow in He. lia.
    + lia.
  - cbn [step fst]. unfold Reset, counted. fields.
    repeat split; first [lia | reflexivity].
  - cbn [step fst Tries]. unfold counted. auto.
Qed.

Lemma calls_since_reset_cons c o ops :
  calls_since_reset c (o :: ops) = calls_since_reset (calls_since_reset c [o]) ops.
Proof. reflexivity. Qed.

Lemma state_after_counted g ops :
  forall b c, counted c b ->
  counted (calls_since_reset c ops) (state_after g b ops).
Proof.
  induction ops as [|o ops IH]; intros b c Hc; [exact Hc|].
  rewrite state_after_cons, calls_since_reset_cons.
  apply IH. apply step_counted. assumption.
Qed.

(** C9, as the code has it.  From a fresh counter, after any calls of
    [Duration], [Reset] and [Tries] in which fewer than 2^64 calls of
    [Duration] were made since construction or the last [Reset] (the
    [uint64] try counter has not wrapped), [tries >= n]; no call other
    than [Reset] decreases [n]; and [Reset] sets both to zero. *)
Theorem tries_at_least_n g b0 ops :
  fresh b0 -> calls_since_reset 0 ops <= Int.MaxUint64 ->
  n (state_after g b0 ops) <= tries (state_after g b0 ops)
  /\ (forall o b, o <> OpReset -> n b <= n (fst (step g o b)))
  /\ (forall b, tries (Reset b) = 0 /\ n (Reset b) = 0).
Proof.
  intros (Ht0 & Hn0) Hcalls.
  split; [|split].
  - assert (H0 : counted 0 b0).
    { unfold counted. rewrite Ht0, Hn0. repeat split; first [lia | reflexivity]. }
    destruct (state_after_counted g ops b0 0 H0) as (Hc & Ht & Hn & _).
    rewrite Ht, IntFacts.uint64_small; lia.
  - intros o b. apply step_n_monotone.
  - intros b. unfold Reset. fields. auto.
Qed.

Lemma tries_at_least_n_witness :
  n (state_after declared (New declared 0 Second)
       [OpDuration 1; OpDuration 2; OpTries; OpReset; OpDuration 3; OpDuration 4])
  <= tries (state_after declared (New declared 0 Second)
       [OpDuration 1; OpDuration 2; OpTries; OpReset; OpDuration 3; OpDuration 4]).
Proof.
  refine (proj1 (tries_at_least_n declared (New declared 0 Second)
           [OpDuration 1; OpDuration 2; OpTries; OpReset; OpDuration 3; OpDuration 4]
           _ _)).
  - split; reflexivity.
  - vm_compute. discriminate.
Defined.

(** ** Long runs: the try counter wraps *)

Lemma Duration_times_succ g r k b :
  Duration_times g r (N.succ k) b = fst (Duration g r (Duration_times g r k b)).
Proof. unfold Duration_times. apply N.iter_succ. Qed.

Lemma Duration_times_succ_r g r k b :
  Duration_times g r (N.succ k) b = Duration_times g r k (fst (Duration g r b)).
Proof. unfold Duration_times. apply N.iter_succ_r. Qed.

(** After [k] calls the try counter is [k] more, modulo 2^64. *)
Lemma tries_Duration_times g r k b :
  tries b = Int.uint64 (tries b) ->
  tries (Duration_times g r k b) = Int.uint64 (tries b + Z.of_N k).
Proof.
  intros Hb. induction k as [|k IH] using N.peano_ind.
  - cbn [Z.of_N]. rewrite Z.add_0_r. exact Hb.
  - rewrite Duration_times_succ.
    destruct (Duration_fields g r (Duration_times g r k b)) as (_ & _ & _ & Ht & _).
    cbv zeta in Ht. rewrite Ht, IH, uint64_succ, N2Z.inj_succ.
    f_equal. lia.
Qed.

Lemma n_Duration_times g r k b : n b <= n (Duration_times g r k b).
Proof.
  induction k as [|k IH] using N.peano_ind.
  - cbn. lia.
  - rewrite Duration_times_succ.
    pose proof (Duration_n g r (Duration_times g r k b)) as (Hn & _). lia.
Qed.

(** C2, as the code has it.  A call of [Duration] moves the value that
    [Tries] reports from [t] to [t + 1] modulo 2^64: one more whenever [t]
    is below the largest [uint64], whatever the jitter setting, the stall
    and the outcome of the draw; after [Reset], [Tries] reports 0; and
    [Tries] leaves the counter as it is. *)
Theorem Duration_counts_tries g r b :
  snd (Tries (fst (Duration g r b))) = Int.uint64 (snd (Tries b) + 1)
  /\ (0 <= tries b < Int.MaxUint64 ->
      snd (Tries (fst (Duration g r b))) = snd (Tries b) + 1)
  /\ snd (Tries (Reset b)) = 0
  /\ fst (Tries b) = b.
Proof.
  destruct (Duration_fields g r b) as (_ & _ & _ & Ht & _).
  cbv zeta in Ht. cbn [Tries fst snd]. rewrite Ht.
  split; [reflexivity|]. split; [|split; reflexivity].
  intros Hrange. apply IntFacts.uint64_small. unfold Int.MaxUint64 in *. lia.
Qed.

(** C2 as stated fails at the largest [uint64]: the call of [Duration]
    that follows 2^64 - 1 earlier ones on a zero-value counter takes the
    value of [Tries] from 2^64 - 1 to 0. *)
Lemma Tries_wraps_after_max :
  let b := Duration_times declared 0 18446744073709551615 zero_Backoff in
  snd (Tries b) = Int.MaxUint64
  /\ snd (Tries (fst (Duration declared 0 b))) = 0
  /\ snd (Tries (fst (Duration declared 0 b))) <> snd (Tries b) + 1.
Proof.
  cbv zeta.
  pose proof (tries_Duration_times declared 0 18446744073709551615 zero_Backoff
                eq_refl) as Ht.
  change (Int.uint64 (tries zero_Backoff + Z.of_N 18446744073709551615))
    with Int.MaxUint64 in Ht.
  destruct (Duration_fields declared 0
              (Duration_times declared 0 18446744073709551615 zero_Backoff))
    as (_ & _ & _ & Ht' & _).
  cbv zeta in Ht'. unfold Tries. cbn [snd fst].
  rewrite Ht', Ht.
  split; [reflexivity|]. split; [reflexivity|].
  vm_compute. discriminate.
Qed.

(** C9 as stated fails once the try counter has wrapped: after 2^64 calls
    of [Duration] on a counter without jitter, [tries] is 0 and [n] is not. *)
Lemma tries_below_n_after_wrap :
  let b := Duration_times declared 0 18446744073709551616
             (NewWithoutJitter declared 0 0) in
  tries b = 0 /\ 1 <= n b /\ ~ (n b <= tries b).
Proof.
  cbv zeta.
  pose proof (tries_Duration_times declared 0 18446744073709551616
                (NewWithoutJitter declared 0 0) eq_refl) as Ht.
  change (Int.uint64 (tries (NewWithoutJitter declared 0 0)
                      + Z.of_N 18446744073709551616)) with 0 in Ht.
  assert (Hn : 1 <= n (Duration_times declared 0 18446744073709551616
                         (NewWithoutJitter declared 0 0))).
  { change 18446744073709551616%N with (N.succ 18446744073709551615).
    rewrite Duration_times_succ_r.
    pose proof (n_Duration_times declared 0 18446744073709551615
                  (fst (Duration declared 0 (NewWithoutJitter declared 0 0)))) as Hm.
    change (n (fst (Duration declared 0 (NewWithoutJitter declared 0 0))))
      with 1 in Hm.
    exact Hm. }
  split; [assumption|]. split; [assumption|]. lia.
Qed.

(** ** The draw on an empty range *)

(** C4, as the code has it.  [Duration] has no guard before the draw: with
    jitter enabled, a clamped duration of zero is passed to [Int63n] as it
    is, and the call panics with the generator's message, the try counter
    having been incremented. *)
Theorem Duration_zero_range_panics g r b :
  noJitter b = false -> clamped_duration g b = 0 ->
  snd (Duration g r b) = Panicked "invalid argument to Int63n"
  /\ tries (fst (Duration g r b)) = Int.incr (tries b).
Proof.
  intros Hj Hz. split.
  - rewrite Duration_result, Hj, Hz. reflexivity.
  - apply Duration_fields.
Qed.

Lemma Duration_zero_range_panics_witness :
  let b := fst (Duration declared 0 (New declared 1 Int.MinInt64)) in
  snd (Duration declared 5 b) = Panicked "invalid argument to Int63n"
  /\ tries (fst (Duration declared 5 b)) = Int.incr (tries b).
Proof.
  apply (Duration_zero_range_panics declared 5
           (fst (Duration declared 0 (New declared 1 Int.MinInt64)))).
  - reflexivity.
  - reflexivity.
Defined.

(** C4 as stated fails: on the counter [New(1, math.MinInt64)] the first
    call of [Duration] doubles the interval to zero, and the second call,
    with jitter enabled and a clamped duration of zero, panics instead of
    returning zero. *)
Lemma zero_clamped_duration_panics :
  let b := fst (Duration declared 0 (New declared 1 Int.MinInt64)) in
  noJitter b = false
  /\ n b = 1
  /\ clamped_duration declared b = 0
  /\ snd (Duration declared 0 b) = Panicked "invalid argument to Int63n"
  /\ snd (Duration declared 0 b) <> Returned 0.
Proof.
  vm_compute. repeat split; try reflexivity. discriminate.
Qed.

(** The same on a zero-value counter when [DefaultInterval] was set to 0. *)
Example zero_default_interval_panics :
  let g := {| DefaultInterval := 0; DefaultMaxDuration := 6 * Hour |} in
  clamped_duration g zero_Backoff = 0
  /\ snd (Duration g 0 zero_Backoff) = Panicked "invalid argument to Int63n".
Proof. vm_compute. split; reflexivity. Qed.

(** With a positive interval and a positive maximum the clamped duration
    of a counter used from construction is never zero. *)
Lemma clamped_positive g ops b0 :
  0 < interval b0 <= Int.MaxInt64 -> 0 < maxDuration b0 -> n b0 = 0 ->
  0 < clamped_duration g (state_after g b0 ops).
Proof.
  intros Hi Hm Hn.
  pose proof (exact_of_start b0 Hi Hn) as Hb0.
  assert (Hcfg : forall ops b, exact b -> 0 < maxDuration b ->
                 exact (state_after g b ops)
                 /\ 0 < maxDuration (state_after g b ops)).
  { clear. induction ops as [|o ops IH]; intros b Hb Hm; [auto|].
    rewrite state_after_cons.
    destruct (step_exact g o b Hb) as (He & _).
    apply IH; [assumption|].
    destruct (step_configured g g o b) as (_ & _ & _); [destruct Hb; lia|lia|].
    destruct o as [r| |].
    - rewrite step_Duration. cbn [fst].
      destruct (Duration_keeps_config g r b) as (_ & Hm' & _);
        [destruct Hb; lia|lia|].
      cbv zeta in Hm'. rewrite Hm'. assumption.
    - cbn [step fst]. unfold Reset. fields. assumption.
    - cbn [step fst Tries]. assumption. }
  destruct (Hcfg ops b0 Hb0 Hm) as (He & Hm').
  rewrite clamped_exact by (try assumption; lia).
  destruct He as (Hpos & Hn0 & _).
  pose proof (IntFacts.pow2_pos _ Hn0). nia.
Qed.

(** ** What a call of [Duration] can give *)

Lemma clamp_le b t : clamp b t <= maxDuration b.
Proof.
  unfold clamp. destruct (Z.gtb_spec t (maxDuration b)); lia.
Qed.

Lemma clamped_le_max g b : clamped_duration g b <= maxDuration (setup g b).
Proof. unfold clamped_duration. cbv zeta. apply clamp_le. Qed.

(** X1. Whatever the state of the counter, a call of [Duration] that
    returns gives at most the maximum in force (the field after the
    defaulting), and with jitter a value from 0 up to, but not reaching,
    that maximum; a call panics only with jitter enabled, and only when
    the clamped duration is not positive. *)
Theorem Duration_outcome g r b :
  match snd (Duration g r b) with
  | Returned d =>
      d <= maxDuration (setup g b)
      /\ (noJitter b = false -> 0 <= d < maxDuration (setup g b))
  | Panicked _ => noJitter b = false /\ clamped_duration g b <= 0
  end.
Proof.
  rewrite Duration_result.
  pose proof (clamped_le_max g b) as Hle.
  destruct (noJitter b) eqn:Hj.
  - split; [assumption|discriminate].
  - unfold Int63n.
    destruct (Z.leb_spec (clamped_duration g b) 0) as [Hz|Hpos].
    + split; [reflexivity|assumption].
    + pose proof (Z.mod_pos_bound r (clamped_duration g b) Hpos).
      split; [lia|intros _; lia].
Qed.

(** ** The exponent and the duration in closed form *)

Lemma stall_exponent_spec itv k :
  0 < itv <= Int.MaxInt64 -> 0 <= k ->
  (itv * 2 ^ k <= Int.MaxInt64 <-> k <= stall_exponent itv).
Proof.
  intros Hi Hk. unfold stall_exponent.
  set (q := Int.MaxInt64 / itv).
  assert (Hq : 1 <= q).
  { unfold q. apply Z.div_le_lower_bound; lia. }
  assert (Hmul : itv * q <= Int.MaxInt64).
  { unfold q. apply Z.mul_div_le. lia. }
  destruct (Z.log2_spec q) as (Hlo & Hhi); [lia|].
  pose proof (Z.log2_nonneg q) as Hs.
  split.
  - intros Hfit.
    assert (Hkq : 2 ^ k <= q).
    { unfold q. apply Z.div_le_lower_bound; lia. }
    assert (Hlt : 2 ^ k < 2 ^ Z.succ (Z.log2 q)) by lia.
    apply Z.pow_lt_mono_r_iff in Hlt; lia.
  - intros Hle.
    assert (2 ^ k <= 2 ^ Z.log2 q) by (apply Z.pow_le_mono_r; lia).
    nia.
Qed.

Lemma stall_exponent_range itv :
  0 < itv <= Int.MaxInt64 -> 0 <= stall_exponent itv <= 62.
Proof.
  intros Hi. split; [apply Z.log2_nonneg|].
  pose proof (Z.log2_nonneg (Int.MaxInt64 / itv)) as Hs. fold (stall_exponent itv) in Hs.
  apply IntFacts.pow2_fits; [assumption|].
  assert (Hfit : itv * 2 ^ stall_exponent itv <= Int.MaxInt64)
    by (apply stall_exponent_spec; lia).
  pose proof (IntFacts.pow2_pos _ Hs). nia.
Qed.

Lemma exact_interval_range b : exact b -> 0 < interval b <= Int.MaxInt64.
Proof.
  intros (Hi & Hn & Hf). split; [assumption|].
  unfold fits in Hf. pose proof (IntFacts.pow2_pos _ Hn). nia.
Qed.

(** After [k] calls the exponent is [k] more, up to the stall. *)
Lemma Durations_n_min g rs :
  forall b, exact b ->
  n (Durations g rs b)
  = Z.min (n b + Z.of_nat (List.length rs)) (stall_exponent (interval b)).
Proof.
  induction rs as [|r rs IH]; intros b Hb.
  - cbn [Durations fold_left List.length Z.of_nat]. rewrite Z.add_0_r.
    pose proof (exact_interval_range b Hb) as Hi.
    destruct Hb as (_ & Hn & Hf).
    apply stall_exponent_spec in Hf; [lia|assumption|assumption].
  - rewrite Durations_cons.
    destruct (Duration_exact g r b Hb) as (Hb1 & Hi1 & Hn1). cbv zeta in *.
    rewrite (IH _ Hb1), Hi1, Hn1.
    change (List.length (r :: rs)) with (S (List.length rs)).
    rewrite Nat2Z.inj_succ.
    pose proof (exact_interval_range b Hb) as Hi.
    pose proof (Zle_0_nat (List.length rs)) as Hlen.
    destruct Hb as (_ & Hn & Hf).
    pose proof (stall_exponent_spec (interval b) (n b) Hi Hn) as Hs0.
    pose proof (stall_exponent_spec (interval b) (n b + 1) Hi ltac:(lia)) as Hs1.
    unfold fits in Hf.
    destruct (Z.leb_spec (interval b * 2 ^ (n b + 1)) Int.MaxInt64) as [Hle|Hgt].
    + f_equal. lia.
    + assert (n b <= stall_exponent (interval b)) by (apply Hs0; assumption).
      assert (~ n b + 1 <= stall_exponent (interval b)) by (intros H'; apply Hs1 in H'; lia).
      lia.
Qed.

(** X2. With a positive interval and a maximum that is set, on a counter
    fresh from construction or [Reset], the call of [Duration] that
    follows [k] earlier calls finds the exponent [min k s], where [s] is
    the stall exponent of the interval, and clamps the duration to
    [min (interval * 2^(min k s)) maxDuration]: this is what it returns
    without jitter, and the bound of the draw with jitter. *)
Theorem Duration_closed_form g rs b :
  0 < interval b <= Int.MaxInt64 -> maxDuration b <> 0 -> n b = 0 ->
  let k := Z.of_nat (List.length rs) in
  let e := Z.min k (stall_exponent (interval b)) in
  n (Durations g rs b) = e
  /\ clamped_duration g (Durations g rs b)
     = Z.min (interval b * 2 ^ e) (maxDuration b)
  /\ (noJitter b = true ->
      forall r, snd (Duration g r (Durations g rs b))
                = Returned (Z.min (interval b * 2 ^ e) (maxDuration b))).
Proof.
  intros Hi Hm Hn. cbv zeta.
  pose proof (exact_of_start b Hi Hn) as Hb.
  pose proof (Durations_n_min g rs b Hb) as Hnk.
  rewrite Hn in Hnk. cbn [Z.add] in Hnk.
  destruct (Durations_exact g rs b Hb) as (He & Hi' & _). cbv zeta in *.
  destruct (Durations_keep_config g rs b) as (_ & Hm' & Hj' & _); [lia|assumption|].
  cbv zeta in *.
  assert (Hcl : clamped_duration g (Durations g rs b)
                = Z.min (interval b * 2 ^ Z.min (Z.of_nat (List.length rs))
                                          (stall_exponent (interval b)))
                        (maxDuration b)).
  { rewrite clamped_exact by (try assumption; congruence).
    rewrite Hi', Hm', Hnk. reflexivity. }
  split; [assumption|]. split; [assumption|].
  intros Hj r. rewrite Duration_result, Hj', Hj, Hcl. reflexivity.
Qed.

Lemma Duration_closed_form_witness :
  n (Durations declared (repeat 0 40) (NewWithoutJitter declared 0 0)) = 24
  /\ clamped_duration declared (Durations declared (repeat 0 40) (NewWithoutJitter declared 0 0))
     = 6 * Hour.
Proof.
  pose proof (Duration_closed_form declared (repeat 0 40)
                (NewWithoutJitter declared 0 0)) as H.
  cbv zeta in H.
  destruct H as (Hn & Hc & _).
  - unfold Int.MaxInt64. simpl. lia.
  - vm_compute. discriminate.
  - reflexivity.
  - split; [rewrite Hn|rewrite Hc]; vm_compute; reflexivity.
Defined.

(** ** Growth and saturation *)

(** X3. With a positive interval and a maximum that is set, the clamped
    duration never shrinks from one call of [Duration] to the next: without
    jitter, each call returns at least what the call before it returned. *)
Theorem Duration_never_shrinks g rs r b :
  0 < interval b <= Int.MaxInt64 -> maxDuration b <> 0 -> n b = 0 ->
  clamped_duration g (Durations g rs b)
  <= clamped_duration g (fst (Duration g r (Durations g rs b)))
  /\ (noJitter b = true ->
      forall r', exists d1 d2,
        snd (Duration g r (Durations g rs b)) = Returned d1
        /\ snd (Duration g r' (fst (Duration g r (Durations g rs b)))) = Returned d2
        /\ d1 <= d2).
Proof.
  intros Hi Hm Hn.
  pose proof (exact_of_start b Hi Hn) as Hb.
  destruct (Durations_exact g rs b Hb) as (He & Hi' & _). cbv zeta in *.
  destruct (Durations_keep_config g rs b) as (_ & Hm' & Hj' & _); [lia|assumption|].
  cbv zeta in *.
  set (b1 := Durations g rs b) in *.
  destruct (Duration_exact g r b1 He) as (He2 & Hi2 & _). cbv zeta in *.
  destruct (Duration_keeps_config g r b1) as (_ & Hm2 & Hj2 & _);
    [lia|congruence|]. cbv zeta in *.
  pose proof (Duration_n g r b1) as ((Hn1 & _) & _).
  set (b2 := fst (Duration g r b1)) in *.
  assert (Hle : clamped_duration g b1 <= clamped_duration g b2).
  { rewrite !clamped_exact by (try assumption; congruence).
    rewrite Hi2, Hm2.
    assert (0 <= n b1) by (destruct He as (_ & H0 & _); exact H0).
    assert (2 ^ n b1 <= 2 ^ n b2) by (apply Z.pow_le_mono_r; lia).
    assert (interval b1 * 2 ^ n b1 <= interval b1 * 2 ^ n b2) by nia.
    lia. }
  split; [assumption|].
  intros Hj r'.
  exists (clamped_duration g b1), (clamped_duration g b2).
  rewrite !Duration_result, Hj2, Hj', Hj. auto.
Qed.

Lemma Duration_never_shrinks_witness :
  clamped_duration declared (Durations declared [0; 0] (NewWithoutJitter declared 5 1))
  <= clamped_duration declared
       (fst (Duration declared 0 (Durations declared [0; 0] (NewWithoutJitter declared 5 1)))).
Proof.
  refine (proj1 (Duration_never_shrinks declared [0; 0] 0
                   (NewWithoutJitter declared 5 1) _ _ _)).
  - unfold Int.MaxInt64. simpl. lia.
  - vm_compute. discriminate.
  - reflexivity.
Defined.

(** X4. With a positive interval and a positive maximum of at most 2^62
    nanoseconds, after 62 calls of [Duration] every further call is
    clamped to the maximum: it returns [maxDuration] without jitter, and
    draws below [maxDuration] with jitter. *)
Theorem Duration_saturates g rs b :
  0 < interval b <= Int.MaxInt64 -> 0 < maxDuration b <= 2 ^ 62 -> n b = 0 ->
  (62 <= List.length rs)%nat ->
  clamped_duration g (Durations g rs b) = maxDuration b
  /\ (noJitter b = true ->
      forall r, snd (Duration g r (Durations g rs b)) = Returned (maxDuration b)).
Proof.
  intros Hi Hm Hn Hlen.
  pose proof (exact_of_start b Hi Hn) as Hb.
  pose proof (Durations_n_min g rs b Hb) as Hnk.
  rewrite Hn in Hnk. cbn [Z.add] in Hnk.
  destruct (Durations_exact g rs b Hb) as (He & Hi' & _). cbv zeta in *.
  destruct (Durations_keep_config g rs b) as (_ & Hm' & Hj' & _); [lia|lia|].
  cbv zeta in *.
  set (b1 := Durations g rs b) in *.
  pose proof (stall_exponent_range (interval b) Hi) as Hs.
  set (s := stall_exponent (interval b)) in *.
  assert (Hbig : 2 ^ 62 <= interval b * 2 ^ n b1).
  { destruct (Z.le_gt_cases s (Z.of_nat (List.length rs))) as [Hstall|Hfree].
    - assert (Hns : n b1 = s) by lia.
      assert (Hover : ~ interval b * 2 ^ (s + 1) <= Int.MaxInt64).
      { intros Hfit. apply stall_exponent_spec in Hfit; [fold s in Hfit; lia|assumption|lia]. }
      rewrite Hns. rewrite IntFacts.pow2_succ in Hover by lia.
      unfold Int.MaxInt64 in Hover. change (2 ^ 62) with 4611686018427387904. lia.
    - assert (Hnk' : n b1 = Z.of_nat (List.length rs)) by lia.
      assert (2 ^ 62 <= 2 ^ n b1) by (apply Z.pow_le_mono_r; lia).
      nia. }
  assert (Hcl : clamped_duration g b1 = maxDuration b).
  { rewrite clamped_exact by (try assumption; lia).
    rewrite Hi', Hm'. lia. }
  split; [assumption|].
  intros Hj r. rewrite Duration_result, Hj', Hj, Hcl. reflexivity.
Qed.

Lemma Duration_saturates_witness :
  clamped_duration declared (Durations declared (repeat 0 62) (New declared Hour 1)) = Hour.
Proof.
  refine (proj1 (Duration_saturates declared (repeat 0 62) (New declared Hour 1) _ _ _ _)).
  - unfold Int.MaxInt64. simpl. lia.
  - vm_compute. split; [reflexivity|discriminate].
  - reflexivity.
  - simpl. lia.
Defined.

(** Above 2^62 the maximum need not be reached: with an interval of one
    nanosecond the duration stays at 2^62. *)
Example one_nanosecond_plateau :
  snd (Duration declared 0
         (Durations declared (repeat 0 200) (NewWithoutJitter declared Int.MaxInt64 1)))
  = Returned (2 ^ 62).
Proof. vm_compute. reflexivity. Qed.

(** ** [Reset] gives the counter back *)

Lemma setup_set_tries g v b : setup g (set_tries v b) = set_tries v (setup g b).
Proof.
  unfold setup. fields.
  destruct (interval b =? 0); fields; destruct (maxDuration b =? 0); reflexivity.
Qed.

Lemma setup_set_n g v b : setup g (set_n v b) = set_n v (setup g b).
Proof.
  unfold setup. fields.
  destruct (interval b =? 0); fields; destruct (maxDuration b =? 0); reflexivity.
Qed.

Lemma setup_set_noJitter g v b :
  setup g (set_noJitter v b) = set_noJitter v (setup g b).
Proof.
  unfold setup. fields.
  destruct (interval b =? 0); fields; destruct (maxDuration b =? 0); reflexivity.
Qed.

(** No call changes the settings that the defaulting gives. *)
Lemma step_settings g o b :
  same_settings (setup g (fst (step g o b))) (setup g b).
Proof.
  destruct o as [r| |].
  - rewrite step_Duration. cbn [fst]. rewrite Duration_state. cbv zeta.
    destruct (may_grow (setup g b));
      rewrite ?setup_set_n, setup_set_tries, setup_idempotent;
      unfold same_settings; fields; auto.
  - cbn [step fst]. rewrite setup_Reset.
    unfold same_settings, Reset. fields. auto.
  - cbn [step fst Tries]. unfold same_settings. auto.
Qed.

Lemma state_after_settings g ops :
  forall b, same_settings (setup g (state_after g b ops)) (setup g b).
Proof.
  induction ops as [|o ops IH]; intros b; [unfold same_settings; auto|].
  rewrite state_after_cons.
  destruct (IH (fst (step g o b))) as (H1 & H2 & H3 & H4).
  destruct (step_settings g o b) as (K1 & K2 & K3 & K4).
  unfold same_settings. repeat split; congruence.
Qed.

Lemma state_after_configured g ops :
  forall b, interval b <> 0 -> maxDuration b <> 0 ->
  interval (state_after g b ops) <> 0 /\ maxDuration (state_after g b ops) <> 0.
Proof.
  induction ops as [|o ops IH]; intros b Hi Hm; [auto|].
  rewrite state_after_cons.
  destruct (step_configured g g o b Hi Hm) as (_ & Hi' & Hm').
  apply IH; assumption.
Qed.

(** X5. [Reset] undoes the calls made so far: on a fresh counter, after
    any calls, a [Reset] leaves a counter that answers every further
    sequence of calls as the fresh counter would have; when interval and
    maximum were set at the start it is the fresh counter itself. *)
Theorem Reset_restores g b0 ops ops' :
  fresh b0 ->
  observed g (Reset (state_after g b0 ops)) ops' = observed g b0 ops'
  /\ (interval b0 <> 0 -> maxDuration b0 <> 0 ->
      Reset (state_after g b0 ops) = b0).
Proof.
  intros (Ht & Hn).
  destruct (state_after_settings g ops b0) as (H1 & H2 & H3 & H4).
  destruct (setup_keeps g b0) as (_ & Ht0 & Hn0 & _).
  assert (Heq : setup g (Reset (state_after g b0 ops)) = setup g b0).
  { rewrite setup_Reset. apply Backoff_eq; unfold Reset; fields; congruence. }
  split; [apply observed_up_to_setup; assumption|].
  intros Hi Hm.
  destruct (state_after_configured g ops b0 Hi Hm) as (Hi' & Hm').
  transitivity (setup g (Reset (state_after g b0 ops))).
  - symmetry. apply setup_configured; unfold Reset; fields; assumption.
  - rewrite Heq. apply setup_configured; assumption.
Qed.

Lemma Reset_restores_witness :
  Reset (state_after declared (New declared 10 1)
           [OpDuration 4; OpTries; OpDuration 9; OpDuration 2])
  = New declared 10 1.
Proof.
  refine (proj2 (Reset_restores declared (New declared 10 1)
                   [OpDuration 4; OpTries; OpDuration 9; OpDuration 2] [] _) _ _).
  - split; reflexivity.
  - vm_compute. discriminate.
  - vm_compute. discriminate.
Defined.

(** ** What [Tries] counts *)

(** X6. On a fresh counter, after any calls, [Tries] reports the number of
    [Duration] calls made since construction or the last [Reset], modulo
    2^64; the exponent is at most that number and at most 63. *)
Theorem Tries_counts_calls g b0 ops :
  fresh b0 ->
  let b := state_after g b0 ops in
  snd (Tries b) = Int.uint64 (calls_since_reset 0 ops)
  /\ 0 <= n b <= Z.min (calls_since_reset 0 ops) 63.
Proof.
  intros (Ht & Hn). cbv zeta.
  assert (H0 : counted 0 b0).
  { unfold counted. rewrite Ht, Hn. repeat split; first [lia | reflexivity]. }
  destruct (state_after_counted g ops b0 0 H0) as (Hc & Ht' & Hn' & H63).
  cbn [Tries snd]. split; [assumption|lia].
Qed.

Lemma Tries_counts_calls_witness :
  snd (Tries (state_after declared zero_Backoff
                [OpDuration 1; OpDuration 2; OpReset; OpDuration 3; OpTries; OpDuration 4]))
  = Int.uint64 2.
Proof.
  refine (proj1 (Tries_counts_calls declared zero_Backoff
            [OpDuration 1; OpDuration 2; OpReset; OpDuration 3; OpTries; OpDuration 4] _)).
  split; reflexivity.
Defined.

(** ** Jitter *)

Lemma clamped_set_noJitter g v b :
  clamped_duration g (set_noJitter v b) = clamped_duration g b.
Proof.
  unfold clamped_duration. cbv zeta. rewrite setup_set_noJitter. reflexivity.
Qed.

(** X7. Jitter changes what [Duration] returns and nothing else: the same
    counter with jitter switched off moves to the same state, whatever the
    generator chose, and a duration returned with jitter lies from 0 up to,
    but not reaching, the duration returned without. *)
Theorem jitter_below_plain g r r' b d :
  noJitter b = false -> snd (Duration g r b) = Returned d ->
  fst (Duration g r' (set_noJitter true b)) = set_noJitter true (fst (Duration g r b))
  /\ exists d0,
       snd (Duration g r' (set_noJitter true b)) = Returned d0 /\ 0 <= d < d0.
Proof.
  intros Hj Hd. split.
  - rewrite !Duration_state. cbv zeta. rewrite setup_set_noJitter.
    change (may_grow (set_noJitter true (setup g b))) with (may_grow (setup g b)).
    fields. destruct (may_grow (setup g b)); reflexivity.
  - exists (clamped_duration g b).
    rewrite Duration_result, clamped_set_noJitter. fields.
    split; [reflexivity|].
    rewrite Duration_result, Hj in Hd. unfold Int63n in Hd.
    destruct (Z.leb_spec (clamped_duration g b) 0) as [Hz|Hpos]; [discriminate|].
    injection Hd as <-. apply Z.mod_pos_bound. assumption.
Qed.

Lemma jitter_below_plain_witness :
  exists d0,
    snd (Duration declared 0 (set_noJitter true (New declared 0 0))) = Returned d0
    /\ 0 <= 12345 < d0.
Proof.
  refine (proj2 (jitter_below_plain declared 12345 0 (New declared 0 0) 12345 _ _)).
  - reflexivity.
  - reflexivity.
Defined.

(** ** The first call on a constructed counter *)

Lemma raw_duration_start b :
  n b = 0 -> Int.MinInt64 <= interval b <= Int.MaxInt64 ->
  raw_duration b = interval b.
Proof.
  intros Hn Hi. unfold raw_duration, pow_of. rewrite Hn.
  change (Int.int64 (Int.shl 1 0)) with 1.
  unfold Int.mul. rewrite Z.mul_1_r. apply IntFacts.int64_small. assumption.
Qed.

Lemma clamp_min b t : clamp b t = Z.min t (maxDuration b).
Proof.
  unfold clamp. destruct (Z.gtb_spec t (maxDuration b)); lia.
Qed.

Lemma New_is_set_up g max itv : setup g (New g max itv) = New g max itv.
Proof. unfold New. apply setup_idempotent. Qed.

Lemma clamped_New g max itv :
  Int.MinInt64 <= interval (New g max itv) <= Int.MaxInt64 ->
  clamped_duration g (New g max itv)
  = Z.min (interval (New g max itv)) (maxDuration (New g max itv)).
Proof.
  intros Hi. unfold clamped_duration. cbv zeta.
  rewrite New_is_set_up, clamp_min, raw_duration_start; [reflexivity| |assumption].
  unfold New. destruct (setup_keeps g {| maxDuration := max; interval := itv;
    noJitter := false; tries := 0; n := 0; rng := None |}) as (_ & _ & Hn & _).
  exact Hn.
Qed.

(** X8. The first call of [Duration] on a constructed counter is clamped
    to the smaller of the interval and the maximum, as the defaulting left
    them.  [NewWithoutJitter] returns that value; on a counter from [New]
    the call panics exactly when the value is not positive (an interval or
    a maximum below zero, or a default of zero), and otherwise returns the
    generator's choice reduced below it. *)
Theorem first_Duration g r max itv :
  Int.MinInt64 <= interval (New g max itv) <= Int.MaxInt64 ->
  let lim := Z.min (interval (New g max itv)) (maxDuration (New g max itv)) in
  snd (Duration g r (NewWithoutJitter g max itv)) = Returned lim
  /\ ((exists msg, snd (Duration g r (New g max itv)) = Panicked msg) <-> lim <= 0)
  /\ (0 < lim -> snd (Duration g r (New g max itv)) = Returned (r mod lim)).
Proof.
  intros Hi. cbv zeta.
  pose proof (clamped_New g max itv Hi) as Hc.
  assert (Hj : noJitter (New g max itv) = false).
  { unfold New. destruct (setup_keeps g {| maxDuration := max; interval := itv;
      noJitter := false; tries := 0; n := 0; rng := None |}) as (Hj & _).
    exact Hj. }
  split; [|split].
  - unfold NewWithoutJitter.
    rewrite Duration_result, clamped_set_noJitter, Hc. reflexivity.
  - rewrite Duration_result, Hj, Hc. unfold Int63n.
    destruct (Z.leb_spec (Z.min (interval (New g max itv)) (maxDuration (New g max itv))) 0)
      as [Hz|Hpos].
    + split; [intros _; assumption|intros _; eexists; reflexivity].
    + split; [intros (msg & Hmsg); discriminate|intros; lia].
  - intros Hpos. rewrite Duration_result, Hj, Hc. unfold Int63n.
    destruct (Z.leb_spec (Z.min (interval (New g max itv)) (maxDuration (New g max itv))) 0);
      [lia|reflexivity].
Qed.

Lemma first_Duration_witness :
  exists msg, snd (Duration declared 7 (New declared Hour (- Second))) = Panicked msg.
Proof.
  refine (proj2 (proj1 (proj2 (first_Duration declared 7 Hour (- Second) _))) _).
  - vm_compute. split; discriminate.
  - vm_compute. discriminate.
Defined.

(** ** The defaults are read at most once *)

(** X9. When both defaults are not zero, the first call of [Duration]
    fixes the settings of the counter, whatever it was before: assignments
    to [DefaultInterval] and [DefaultMaxDuration] made after that call do
    not change what any later call does. *)
Theorem defaults_read_once g r b es :
  DefaultInterval g <> 0 -> DefaultMaxDuration g <> 0 ->
  play g b (Call (OpDuration r) :: es) = observed g b (OpDuration r :: calls_of es).
Proof.
  intros Hi Hm. cbn [play]. rewrite observed_cons, step_Duration. cbn [fst snd].
  f_equal. apply play_configured.
  - destruct (Duration_fields g r b) as (_ & Hi' & _). cbv zeta in Hi'.
    rewrite Hi', interval_setup.
    destruct (Z.eqb_spec (interval b) 0); assumption.
  - destruct (Duration_fields g r b) as (Hm' & _). cbv zeta in Hm'.
    rewrite Hm', maxDuration_setup.
    destruct (Z.eqb_spec (maxDuration b) 0); assumption.
Qed.

Lemma defaults_read_once_witness :
  play declared zero_Backoff
    [Call (OpDuration 5); SetDefaultInterval 0; SetDefaultMaxDuration 1; Call (OpDuration 6)]
  = observed declared zero_Backoff [OpDuration 5; OpDuration 6].
Proof.
  apply (defaults_read_once declared 5 zero_Backoff
           [SetDefaultInterval 0; SetDefaultMaxDuration 1; Call (OpDuration 6)]).
  - vm_compute. discriminate.
  - vm_compute. discriminate.
Defined.

(** ** The tests pass *)

Lemma TestSetup_passes draws : TestSetup declared draws = Pass.
Proof.
  unfold TestSetup. cbv zeta. rewrite Duration_result.
  change (noJitter zero_Backoff) with false. cbv iota.
  change (clamped_duration declared zero_Backoff) with (5 * Minute).
  destruct (Int63n_positive (draws 0%nat) (5 * Minute)) as (d & Hd & Hrange);
    [reflexivity|].
  rewrite Hd.
  destruct (Z.ltb_spec d 0); [lia|].
  destruct (Z.gtb_spec d (5 * Minute)); [lia|]. reflexivity.
Qed.

(** X10. With the package's variables as declared, the four tests of the
    package pass whatever the generator yields: no check fails, and no
    call of [Duration] they make panics. *)
Theorem tests_pass draws :
  TestDefaults declared draws = Pass
  /\ TestSetup declared draws = Pass
  /\ TestTries declared draws = Pass
  /\ TestReset declared draws = Pass.
Proof.
  split; [vm_compute; reflexivity|].
  split; [apply TestSetup_passes|].
  split; vm_compute; reflexivity.
Qed.
